(** * CraftingGame: the resource economy of [src/CraftingGame/script.js]

    The script keeps the wallet and eight resource counters in global
    variables and changes them through three functions, [buy], [craft] and
    [sell], which the page calls from its buttons.  Each function also
    writes the new values into the page and, on one path, logs to the
    console.

    The embedding is shallow: the globals become a record that is passed
    through every function, the page becomes a finite map from element id
    to the text the script last wrote there, and the console becomes the
    list of logged error messages.

    Amounts are whole numbers.  The wallet and the prices are JavaScript
    numbers, that is binary64 floating point: a sum or difference is the
    exact result rounded to 53 significant bits, ties to even, and becomes
    an infinity beyond the largest finite number.  [num_add] and [num_sub]
    below compute exactly that on integers, with the two infinities written
    as plus and minus [2 ^ 1024]; a price stands for a finite number.  The
    counters only ever move by 1 or 2 a call and are kept as plain integers.
    The [item] argument is modelled as a string, which is what the loose
    comparison [item == 'milk'] sees for a string argument.

    What an element of the page shows is kept as the number assigned to it
    and the text put in front of it; how JavaScript spells a number is left
    to the language.  Line 2, which only un-hides the game, is not part of
    the model. *)

From Stdlib Require Import ZArith String List Lia.
From stdpp Require Import base strings gmap.

Local Open Scope Z_scope.
Local Open Scope string_scope.

(** ** Numbers *)

Local Close Scope string_scope.

(** The multiple of the unit in the last place nearest to [x], for [x]
    above [2 ^ 53]: the unit is [2 ^ (Z.log2 x - 52)], and a tie goes to
    the even multiple. *)
Definition nearest53 (x : Z) : Z :=
  let e := Z.log2 x - 52 in
  let u := 2 ^ e in
  let q := x / u in
  let r := x mod u in
  let h := u / 2 in
  if r <? h then q * u
  else if h <? r then (q + 1) * u
  else if Z.even q then q * u else (q + 1) * u.

(** [x] rounded to 53 significant bits.  Up to [2 ^ 53] in size every
    integer is kept as it is. *)
Definition round53 (x : Z) : Z :=
  if Z.abs x <=? 2 ^ 53 then x else Z.sgn x * nearest53 (Z.abs x).

(** The value standing for [Infinity]; [- infinity] stands for
    [-Infinity]. *)
Definition infinity : Z := 2 ^ 1024.

(** The number nearest to the integer [x]: rounded, and an infinity when
    the rounded value leaves the finite range. *)
Definition number (x : Z) : Z :=
  let y := round53 x in
  if infinity <=? y then infinity
  else if y <=? - infinity then - infinity
  else y.

Definition is_infinite (a : Z) : bool := infinity <=? Z.abs a.

(** [a + b] and [a - b] on numbers, for a finite [b]: an infinite [a] stays
    what it is.  An integer that is no number is read as the number nearest
    to it. *)
Definition num_add (a b : Z) : Z :=
  let a := number a in
  let b := number b in
  if is_infinite a then a else number (a + b).

Definition num_sub (a b : Z) : Z :=
  let a := number a in
  let b := number b in
  if is_infinite a then a else number (a - b).

Arguments num_add : simpl never.
Arguments num_sub : simpl never.

(** Within this range every integer is a number, so that sums and
    differences that stay inside are exact. *)
Definition safe (x : Z) : Prop := - 2 ^ 53 <= x <= 2 ^ 53.

Local Open Scope string_scope.

(** ** State *)

(** What the script has put into an element: the number assigned, after the
    text [shown_label] (empty for the counters, the dollar sign for the
    wallet). *)
Record shown := Shown {
  shown_label : string;
  shown_number : Z
}.

(** The globals of script.js lines 16-31, the element texts and the
    console.  [rendered] is keyed by the id passed to
    [document.getElementById] (lines 5-13). *)
Record game := Game {
  money : Z;
  milk : Z;
  bread : Z;
  plate : Z;
  milkbread : Z;
  milksandwich : Z;
  milkmeal : Z;
  cheesesandwich : Z;
  cheese : Z;
  rendered : gmap string shown;
  console : list string
}.

Definition set_money (v : Z) (g : game) : game :=
  Game v (milk g) (bread g) (plate g) (milkbread g) (milksandwich g)
       (milkmeal g) (cheesesandwich g) (cheese g) (rendered g) (console g).

Definition set_milk (v : Z) (g : game) : game :=
  Game (money g) v (bread g) (plate g) (milkbread g) (milksandwich g)
       (milkmeal g) (cheesesandwich g) (cheese g) (rendered g) (console g).

Definition set_bread (v : Z) (g : game) : game :=
  Game (money g) (milk g) v (plate g) (milkbread g) (milksandwich g)
       (milkmeal g) (cheesesandwich g) (cheese g) (rendered g) (console g).

Definition set_plate (v : Z) (g : game) : game :=
  Game (money g) (milk g) (bread g) v (milkbread g) (milksandwich g)
       (milkmeal g) (cheesesandwich g) (cheese g) (rendered g) (console g).

Definition set_milkbread (v : Z) (g : game) : game :=
  Game (money g) (milk g) (bread g) (plate g) v (milksandwich g)
       (milkmeal g) (cheesesandwich g) (cheese g) (rendered g) (console g).

Definition set_milksandwich (v : Z) (g : game) : game :=
  Game (money g) (milk g) (bread g) (plate g) (milkbread g) v
       (milkmeal g) (cheesesandwich g) (cheese g) (rendered g) (console g).

Definition set_milkmeal (v : Z) (g : game) : game :=
  Game (money g) (milk g) (bread g) (plate g) (milkbread g) (milksandwich g)
       v (cheesesandwich g) (cheese g) (rendered g) (console g).

Definition set_cheesesandwich (v : Z) (g : game) : game :=
  Game (money g) (milk g) (bread g) (plate g) (milkbread g) (milksandwich g)
       (milkmeal g) v (cheese g) (rendered g) (console g).

Definition set_cheese (v : Z) (g : game) : game :=
  Game (money g) (milk g) (bread g) (plate g) (milkbread g) (milksandwich g)
       (milkmeal g) (cheesesandwich g) v (rendered g) (console g).

(** [el.innerHTML = text] for the element with id [id]. *)
Definition set_innerHTML (id : string) (text : shown) (g : game) : game :=
  Game (money g) (milk g) (bread g) (plate g) (milkbread g) (milksandwich g)
       (milkmeal g) (cheesesandwich g) (cheese g)
       (<[id := text]> (rendered g)) (console g).

(** [el.innerHTML = n]: the element shows the number alone. *)
Definition show (id : string) (n : Z) (g : game) : game :=
  set_innerHTML id (Shown "" n) g.

(** [console.error(msg)]. *)
Definition console_error (msg : string) (g : game) : game :=
  Game (money g) (milk g) (bread g) (plate g) (milkbread g) (milksandwich g)
       (milkmeal g) (cheesesandwich g) (cheese g) (rendered g)
       (console g ++ [msg])%list.

(** The state after the top-level statements of the script have run
    (lines 16-31): ten units of money, every counter at zero, the wallet
    shown once and nothing logged. *)
Definition initial : game :=
  Game 10 0 0 0 0 0 0 0 0 {["display" := Shown "$" 10]} [].

(** ** The three operations *)

(** script.js lines 34-52. *)
Definition buy (price : Z) (item : string) (g : game) : game :=
  let g :=
    if money g >=? price then
      let g := set_money (num_sub (money g) price) g in
      if item =? "milk" then
        let g := set_milk (milk g + 1) g in
        show "milk" (milk g) g
      else if item =? "bread" then
        let g := set_bread (bread g + 1) g in
        show "bread" (bread g) g
      else if item =? "plate" then
        let g := set_plate (plate g + 1) g in
        show "plate" (plate g) g
      else
        let g := set_money (num_add (money g) price) g in
        console_error "item not registered" g
    else g in
  set_innerHTML "display" (Shown " $" (money g)) g.

(** script.js lines 55-100. *)
Definition craft (item : string) (g : game) : game :=
  if item =? "milkbread" then
    if (milk g >? 0) && (bread g >? 0) then
      let g := set_bread (bread g - 1) g in
      let g := set_milk (milk g - 1) g in
      let g := set_milkbread (milkbread g + 1) g in
      let g := show "bread" (bread g) g in
      let g := show "milk" (milk g) g in
      show "milkbread" (milkbread g) g
    else g
  else if item =? "milksandwich" then
    if milkbread g >? 1 then
      let g := set_milkbread (milkbread g - 2) g in
      let g := set_milksandwich (milksandwich g + 1) g in
      let g := show "milkbread" (milkbread g) g in
      show "milksandwich" (milksandwich g) g
    else g
  else if item =? "milkmeal" then
    if (milksandwich g >? 0) && (milk g >? 0) && (plate g >? 0) then
      let g := set_milksandwich (milksandwich g - 1) g in
      let g := set_milk (milk g - 1) g in
      let g := set_plate (plate g - 1) g in
      let g := set_milkmeal (milkmeal g + 1) g in
      let g := show "milksandwich" (milksandwich g) g in
      let g := show "milk" (milk g) g in
      let g := show "plate" (plate g) g in
      show "milkmeal" (milkmeal g) g
    else g
  else if item =? "cheese" then
    if milk g >? 0 then
      let g := set_milk (milk g - 1) g in
      let g := set_cheese (cheese g + 1) g in
      let g := show "milk" (milk g) g in
      show "cheese" (cheese g) g
    else g
  else if item =? "cheesesandwich" then
    if (cheese g >? 0) && (bread g >? 1) then
      let g := set_cheese (cheese g - 1) g in
      let g := set_bread (bread g - 2) g in
      let g := set_cheesesandwich (cheesesandwich g + 1) g in
      let g := show "cheese" (cheese g) g in
      let g := show "bread" (bread g) g in
      show "cheesesandwich" (cheesesandwich g) g
    else g
  else g.

(** script.js lines 103-131.  The last branch has no test on the counter. *)
Definition sell (price : Z) (item : string) (g : game) : game :=
  if item =? "milkbread" then
    if milkbread g >? 0 then
      let g := set_milkbread (milkbread g - 1) g in
      let g := set_money (num_add (money g) price) g in
      let g := show "milkbread" (milkbread g) g in
      set_innerHTML "display" (Shown "$" (money g)) g
    else g
  else if item =? "milksandwich" then
    if milksandwich g >? 0 then
      let g := set_milksandwich (milksandwich g - 1) g in
      let g := set_money (num_add (money g) price) g in
      let g := show "milksandwich" (milksandwich g) g in
      set_innerHTML "display" (Shown "$" (money g)) g
    else g
  else if item =? "milkmeal" then
    if milkmeal g >? 0 then
      let g := set_milkmeal (milkmeal g - 1) g in
      let g := set_money (num_add (money g) price) g in
      let g := show "milkmeal" (milkmeal g) g in
      set_innerHTML "display" (Shown "$" (money g)) g
    else g
  else if item =? "cheesesandwich" then
    let g := set_cheesesandwich (cheesesandwich g - 1) g in
    let g := set_money (num_add (money g) price) g in
    let g := show "cheesesandwich" (cheesesandwich g) g in
    set_innerHTML "display" (Shown "$" (money g)) g
  else g.

(** ** Sequences of calls *)

(** One call made by the page. *)
Inductive op :=
  | Buy (price : Z) (item : string)
  | Craft (item : string)
  | Sell (price : Z) (item : string).

Definition step (g : game) (o : op) : game :=
  match o with
  | Buy price item => buy price item g
  | Craft item => craft item g
  | Sell price item => sell price item g
  end.

(** The calls of [os] made one after the other, first to last. *)
Definition run (os : list op) (g : game) : game := fold_left step os g.

(** ** Vocabulary of the statements *)

(** The eight resource counters, by name. *)
Inductive resource :=
  | Milk | Bread | Plate
  | Milkbread | Milksandwich | Milkmeal | Cheesesandwich
  | Cheese.

Definition name (r : resource) : string :=
  match r with
  | Milk => "milk"
  | Bread => "bread"
  | Plate => "plate"
  | Milkbread => "milkbread"
  | Milksandwich => "milksandwich"
  | Milkmeal => "milkmeal"
  | Cheesesandwich => "cheesesandwich"
  | Cheese => "cheese"
  end.

Definition counter (r : resource) (g : game) : Z :=
  match r with
  | Milk => milk g
  | Bread => bread g
  | Plate => plate g
  | Milkbread => milkbread g
  | Milksandwich => milksandwich g
  | Milkmeal => milkmeal g
  | Cheesesandwich => cheesesandwich g
  | Cheese => cheese g
  end.

Definition primary : list resource := [Milk; Bread; Plate].

Definition sellable : list resource :=
  [Milkbread; Milksandwich; Milkmeal; Cheesesandwich].

(** Every counter of [g'] equals the one of [g]. *)
Definition same_counters (g g' : game) : Prop :=
  forall r, counter r g' = counter r g.


(** The wallet and every counter hold a non-negative number. *)
Definition nonneg (g : game) : Prop :=
  0 <= money g /\ forall r, 0 <= counter r g.

(** The diagnostic of the unknown-item path of [buy] (line 48) was logged
    on the way from [g] to [g']. *)
Definition signals_unknown_item (g g' : game) : Prop :=
  console g' = (console g ++ ["item not registered"])%list.

(** The names [buy] knows (lines 37, 40 and 43). *)
Definition primary_names : list string := map name primary.

(** A call that keeps away from the two ways a number can fall below zero:
    a negative price, and selling a cheesesandwich when none is held. *)
Definition guarded (g : game) (o : op) : Prop :=
  match o with
  | Buy price _ => 0 <= price
  | Craft _ => True
  | Sell price item =>
      0 <= price /\ (item = "cheesesandwich" -> 1 <= cheesesandwich g)
  end.

(** Every call of the sequence is guarded in the state it is made in. *)
Fixpoint guarded_run (os : list op) (g : game) : Prop :=
  match os with
  | [] => True
  | o :: os' => guarded g o /\ guarded_run os' (step g o)
  end.

(** The names [craft] knows (lines 56, 65, 72, 83 and 90) and the names
    [sell] knows (lines 104, 111, 118 and 125). *)
Definition recipe_names : list string :=
  map name [Milkbread; Milksandwich; Milkmeal; Cheese; Cheesesandwich].

Definition sellable_names : list string := map name sellable.

(** The page is up to date: the element of every counter shows the
    counter, or has not been written yet while the counter still holds the
    zero it started with; and the wallet element shows the money after a
    dollar sign, in one of the two spellings the script uses (lines 17, 109,
    116, 123 and 129 without a leading space, line 51 with one). *)
Definition page_current (g : game) : Prop :=
  (forall r,
     rendered g !! name r = Some (Shown "" (counter r g)) \/
     (rendered g !! name r = None /\ counter r g = 0)) /\
  (rendered g !! "display" = Some (Shown "$" (money g)) \/
   rendered g !! "display" = Some (Shown " $" (money g))).


(** Raw material held, counted through the recipes of [craft]: a milkbread
    holds one milk and one bread, a milksandwich two milkbreads, a milkmeal
    a milksandwich, a milk and a plate, a cheese one milk, a cheesesandwich
    a cheese and two breads. *)
Definition milk_held (g : game) : Z :=
  milk g + milkbread g + 2 * milksandwich g + 3 * milkmeal g
  + cheese g + cheesesandwich g.

Definition bread_held (g : game) : Z :=
  bread g + milkbread g + 2 * milksandwich g + 2 * milkmeal g
  + 2 * cheesesandwich g.

Definition plate_held (g : game) : Z := plate g + milkmeal g.

(** How many calls of a sequence are calls of [buy]. *)
Fixpoint count_buys (os : list op) : nat :=
  match os with
  | [] => 0%nat
  | Buy _ _ :: os' => S (count_buys os')
  | _ :: os' => count_buys os'
  end.

(** ** First checks *)

Example initial_display :
  rendered initial !! "display" = Some (Shown "$" 10).
Proof. reflexivity. Qed.

Example buy_milk_display :
  rendered (buy 1 "milk" initial) !! "display" = Some (Shown " $" 9) /\
  rendered (buy 1 "milk" initial) !! "milk" = Some (Shown "" 1).
Proof. split; reflexivity. Qed.

(** Beyond [2 ^ 53] sums are rounded, ties to even, and beyond the largest
    finite number they are infinite. *)
Example rounded_sums :
  num_add 8 9007199254740991 = 9007199254741000 /\
  num_sub 9007199254740994 1 = 9007199254740992 /\
  num_add (num_sub 10 (- 9007199254740991)) (- 9007199254740991) = 9 /\
  num_add 8 (10 ^ 21) = 10 ^ 21 /\
  num_add (10 ^ 308) (10 ^ 308) = infinity /\
  num_sub infinity (10 ^ 308) = infinity.
Proof.
  repeat match goal with |- _ /\ _ => split end; vm_compute; reflexivity.
Qed.

(** ** Proof support *)

(** Case analysis on the tests of the script: string comparisons against a
    literal and the numeric guards. *)
Ltac split_tests :=
  repeat match goal with
  | |- context [String.eqb ?a ?b] =>
      destruct (String.eqb_spec a b); try subst a; try discriminate
  | |- context [Z.geb ?a ?b] =>
      rewrite (Z.geb_leb a b); destruct (Z.leb_spec b a)
  | |- context [Z.gtb ?a ?b] =>
      rewrite (Z.gtb_ltb a b); destruct (Z.ltb_spec b a)
  end.

(** Reduces the projections of a state built by the setters, leaving the
    page map and the decimal texts alone. *)
Ltac fields :=
  cbn [money milk bread plate milkbread milksandwich milkmeal cheesesandwich
       cheese rendered console set_money set_milk set_bread set_plate
       set_milkbread set_milksandwich set_milkmeal set_cheesesandwich
       set_cheese set_innerHTML show console_error name counter andb] in *.




(** Looks a key up in a map built by writes to literal element ids. *)
Ltac lookups :=
  repeat first
    [ rewrite lookup_insert_eq
    | rewrite lookup_insert_ne by discriminate ].

(** *** Rounding *)

Local Close Scope string_scope.

Lemma ulp_facts (x : Z) :
  2 ^ 53 < x ->
  let e := Z.log2 x - 52 in
  1 <= e /\ 2 ^ 52 * 2 ^ e <= x < 2 ^ 53 * 2 ^ e /\
  2 ^ e = 2 * 2 ^ (e - 1) /\ 0 < 2 ^ (e - 1).
Proof.
  intros Hx e.
  assert (H53 : 53 <= Z.log2 x).
  { rewrite <- (Z.log2_pow2 53) by lia. apply Z.log2_le_mono. lia. }
  assert (Hpos : 0 < x) by lia.
  destruct (Z.log2_spec x Hpos) as [Hlo Hhi].
  assert (He : 1 <= e) by (unfold e; lia).
  split; [exact He | ]. split; [ | split].
  - rewrite <- !Z.pow_add_r by lia.
    replace (52 + e) with (Z.log2 x) by (unfold e; lia).
    replace (53 + e) with (Z.succ (Z.log2 x)) by (unfold e; lia). lia.
  - replace e with (1 + (e - 1)) at 1 by lia.
    rewrite Z.pow_add_r by lia. reflexivity.
  - apply Z.pow_pos_nonneg; lia.
Qed.

(** The result of [nearest53] is one of the two multiples of the unit
    around [x], with a 53-bit factor, and it is [x] when [x] is one. *)
Lemma nearest53_spec (x : Z) :
  2 ^ 53 < x ->
  let u := 2 ^ (Z.log2 x - 52) in
  0 < u /\
  2 ^ 52 <= x / u < 2 ^ 53 /\
  (nearest53 x = x / u * u \/
   nearest53 x = (x / u + 1) * u /\ 0 < x mod u).
Proof.
  intros Hx u.
  destruct (ulp_facts x Hx) as (He & Hb & Hu & Hh). fold u in Hb, Hu.
  set (h := 2 ^ (Z.log2 x - 52 - 1)) in *.
  assert (Hupos : 0 < u) by lia.
  split; [exact Hupos | ]. split.
  - split.
    + apply Z.div_le_lower_bound; lia.
    + apply Z.div_lt_upper_bound; lia.
  - unfold nearest53. fold u.
    replace (u / 2) with h by (rewrite Hu, Z.mul_comm, Z.div_mul; lia).
    pose proof (Z.mod_pos_bound x u Hupos) as Hr.
    destruct (Z.ltb_spec (x mod u) h); [left; reflexivity | ].
    destruct (Z.ltb_spec h (x mod u)); [right; split; [reflexivity | lia] | ].
    destruct (Z.even (x / u)); [left; reflexivity | right; split; [reflexivity | lia]].
Qed.

(** A multiple of the unit of [x] is never crossed. *)
Lemma nearest53_barrier (x k : Z) :
  2 ^ 53 < x ->
  let u := 2 ^ (Z.log2 x - 52) in
  (k * u <= x -> k * u <= nearest53 x) /\
  (x <= k * u -> nearest53 x <= k * u).
Proof.
  intros Hx u.
  destruct (nearest53_spec x Hx) as (Hu & Hq & Hn). fold u in Hu, Hq, Hn.
  pose proof (Z.div_mod x u ltac:(lia)) as Hdm.
  pose proof (Z.mod_pos_bound x u Hu) as Hr.
  split; intros Hk.
  - assert (k <= x / u) by nia. destruct Hn as [-> | [-> _]]; nia.
  - destruct Hn as [-> | [-> Hr0]].
    + nia.
    + assert (x / u < k) by nia. nia.
Qed.

(** The choice between two neighbours only moves up with the remainder. *)
Lemma choice_mono (A B h q rx ry : Z) :
  A <= B -> rx <= ry ->
  (if rx <? h then A else if h <? rx then B else if Z.even q then A else B)
  <= (if ry <? h then A else if h <? ry then B else if Z.even q then A else B).
Proof.
  intros HAB Hr.
  destruct (Z.ltb_spec rx h), (Z.ltb_spec ry h), (Z.ltb_spec h rx),
    (Z.ltb_spec h ry), (Z.even q); lia.
Qed.

Lemma nearest53_mono (x y : Z) :
  2 ^ 53 < x -> x <= y -> nearest53 x <= nearest53 y.
Proof.
  intros Hx Hxy. assert (Hy : 2 ^ 53 < y) by lia.
  pose proof (Z.log2_le_mono x y Hxy) as Hlog.
  destruct (Z.eq_dec (Z.log2 x) (Z.log2 y)) as [Heq | Hne].
  - (* same unit *)
    destruct (nearest53_spec x Hx) as (Hu & Hqx & Hnx).
    destruct (nearest53_spec y Hy) as (_ & Hqy & Hny).
    rewrite <- Heq in Hqy, Hny.
    set (u := 2 ^ (Z.log2 x - 52)) in *.
    assert (Hq : x / u <= y / u) by (apply Z.div_le_mono; lia).
    destruct (Z.eq_dec (x / u) (y / u)) as [Hqe | Hqn].
    + (* same quotient: the remainders decide *)
      pose proof (Z.div_mod x u ltac:(lia)) as Hdx.
      pose proof (Z.div_mod y u ltac:(lia)) as Hdy.
      rewrite <- Hqe in Hdy.
      assert (Hr : x mod u <= y mod u) by lia.
      unfold nearest53. rewrite <- Heq. fold u. rewrite <- Hqe.
      apply choice_mono; [ | exact Hr].
      apply Z.mul_le_mono_nonneg_r; lia.
    + assert (Hstep : (x / u + 1) * u <= y / u * u)
        by (apply Z.mul_le_mono_nonneg_r; lia).
      assert (Hup : y / u * u <= (y / u + 1) * u)
        by (apply Z.mul_le_mono_nonneg_r; lia).
      assert (Hlow : x / u * u <= (x / u + 1) * u)
        by (apply Z.mul_le_mono_nonneg_r; lia).
      destruct Hnx as [-> | [-> _]]; destruct Hny as [-> | [-> _]]; lia.
  - (* the unit of y is larger: the power of two below y lies between *)
    assert (Hlt : Z.log2 x < Z.log2 y) by lia.
    destruct (ulp_facts x Hx) as (Hex & Hbx & _).
    destruct (ulp_facts y Hy) as (Hey & Hby & _).
    set (ex := Z.log2 x - 52) in *. set (ey := Z.log2 y - 52) in *.
    assert (Hd : 0 <= ey - ex - 1) by (unfold ex, ey; lia).
    assert (HB : 2 ^ 52 * 2 ^ ey = (2 ^ 53 * 2 ^ (ey - ex - 1)) * 2 ^ ex).
    { rewrite <- !Z.pow_add_r by lia. f_equal. lia. }
    assert (Hpow : 1 <= 2 ^ (ey - ex - 1))
      by (pose proof (Z.pow_pos_nonneg 2 (ey - ex - 1)); lia).
    assert (Hpx : 0 < 2 ^ ex) by (apply Z.pow_pos_nonneg; lia).
    assert (HxB : x <= (2 ^ 53 * 2 ^ (ey - ex - 1)) * 2 ^ ex).
    { transitivity (2 ^ 53 * 2 ^ ex); [lia | ].
      apply Z.mul_le_mono_nonneg_r; lia. }
    transitivity (2 ^ 52 * 2 ^ ey).
    + rewrite HB. apply (nearest53_barrier x _ Hx). exact HxB.
    + apply (nearest53_barrier y (2 ^ 52) Hy). fold ey. lia.
Qed.

Lemma nearest53_above (y : Z) : 2 ^ 53 < y -> 2 ^ 53 <= nearest53 y.
Proof.
  intros Hy. destruct (ulp_facts y Hy) as (He & Hb & _).
  set (e := Z.log2 y - 52) in *.
  assert (1 <= 2 ^ e) by (pose proof (Z.pow_pos_nonneg 2 e); lia).
  transitivity (2 ^ 52 * 2 ^ e); [nia | ].
  apply (nearest53_barrier y (2 ^ 52) Hy). fold e. lia.
Qed.

Lemma nearest53_fixed (k e : Z) :
  2 ^ 52 <= k < 2 ^ 53 -> 1 <= e -> nearest53 (k * 2 ^ e) = k * 2 ^ e.
Proof.
  intros Hk He. unfold nearest53.
  assert (Hlog : Z.log2 (k * 2 ^ e) - 52 = e).
  { rewrite Z.log2_mul_pow2 by lia.
    rewrite (Z.log2_unique k 52) by lia. lia. }
  rewrite Hlog.
  assert (Hu : 0 < 2 ^ e) by (apply Z.pow_pos_nonneg; lia).
  rewrite Z.div_mul, Z.mod_mul by lia.
  assert (Hh : 0 < 2 ^ e / 2).
  { replace e with (1 + (e - 1)) by lia. rewrite Z.pow_add_r by lia.
    rewrite Z.mul_comm, Z.div_mul by lia. apply Z.pow_pos_nonneg; lia. }
  destruct (Z.ltb_spec 0 (2 ^ e / 2)); [reflexivity | lia].
Qed.

Lemma nearest53_idem (x : Z) :
  2 ^ 53 < x -> 2 ^ 53 < nearest53 x ->
  nearest53 (nearest53 x) = nearest53 x.
Proof.
  intros Hx Hn.
  destruct (ulp_facts x Hx) as (He & _).
  destruct (nearest53_spec x Hx) as (Hu & Hq & Hcase).
  set (e := Z.log2 x - 52) in *.
  assert (Hform : exists k, 2 ^ 52 <= k <= 2 ^ 53 /\ nearest53 x = k * 2 ^ e).
  { destruct Hcase as [E | [E _]]; eexists; (split; [ | exact E]); lia. }
  destruct Hform as (k & Hk & E). rewrite E.
  destruct (Z.eq_dec k (2 ^ 53)) as [-> | Hne].
  - replace (2 ^ 53 * 2 ^ e) with (2 ^ 52 * 2 ^ (e + 1)).
    + apply nearest53_fixed; lia.
    + rewrite <- !Z.pow_add_r by lia. f_equal. lia.
  - apply nearest53_fixed; lia.
Qed.

Lemma round53_safe (x : Z) : safe x -> round53 x = x.
Proof.
  unfold safe, round53. intros H.
  destruct (Z.leb_spec (Z.abs x) (2 ^ 53)); [reflexivity | lia].
Qed.

Lemma round53_opp (x : Z) : round53 (- x) = - round53 x.
Proof.
  unfold round53. rewrite Z.abs_opp, Z.sgn_opp.
  destruct (Z.abs x <=? 2 ^ 53); lia.
Qed.

Lemma round53_pos (x : Z) : 2 ^ 53 < x -> round53 x = nearest53 x.
Proof.
  intros H. unfold round53.
  destruct (Z.leb_spec (Z.abs x) (2 ^ 53)); [lia | ].
  rewrite Z.abs_eq, Z.sgn_pos by lia. lia.
Qed.

Lemma round53_mono_nonneg (x y : Z) :
  0 <= x -> x <= y -> 0 <= round53 x <= round53 y.
Proof.
  intros H0 Hxy.
  destruct (Z_le_gt_dec x (2 ^ 53)) as [Hx | Hx];
    destruct (Z_le_gt_dec y (2 ^ 53)) as [Hy | Hy].
  - rewrite !round53_safe by (unfold safe; lia). lia.
  - rewrite (round53_safe x) by (unfold safe; lia).
    rewrite (round53_pos y) by lia.
    pose proof (nearest53_above y ltac:(lia)). lia.
  - lia.
  - rewrite !round53_pos by lia.
    pose proof (nearest53_above x ltac:(lia)).
    pose proof (nearest53_mono x y ltac:(lia) Hxy). lia.
Qed.

Lemma round53_mono (x y : Z) : x <= y -> round53 x <= round53 y.
Proof.
  intros Hxy.
  destruct (Z_le_gt_dec 0 x) as [Hx | Hx].
  - apply round53_mono_nonneg; assumption.
  - destruct (Z_le_gt_dec 0 y) as [Hy | Hy].
    + pose proof (round53_mono_nonneg 0 (- x) ltac:(lia) ltac:(lia)) as H1.
      pose proof (round53_mono_nonneg 0 y ltac:(lia) Hy) as H2.
      rewrite round53_opp in H1. lia.
    + pose proof (round53_mono_nonneg (- y) (- x) ltac:(lia) ltac:(lia)) as H.
      rewrite !round53_opp in H. lia.
Qed.

Lemma round53_idem (x : Z) : round53 (round53 x) = round53 x.
Proof.
  assert (Hpos : forall z, 0 <= z -> round53 (round53 z) = round53 z).
  { intros z Hz. destruct (Z_le_gt_dec z (2 ^ 53)) as [H | H].
    - rewrite (round53_safe z) by (unfold safe; lia).
      apply round53_safe. unfold safe. lia.
    - rewrite (round53_pos z) by lia.
      pose proof (nearest53_above z ltac:(lia)) as Ha.
      destruct (Z.eq_dec (nearest53 z) (2 ^ 53)) as [E | E].
      + rewrite E. reflexivity.
      + rewrite round53_pos by lia. apply nearest53_idem; lia. }
  destruct (Z_le_gt_dec 0 x) as [Hx | Hx]; [apply Hpos; exact Hx | ].
  pose proof (Hpos (- x) ltac:(lia)) as H.
  rewrite !round53_opp in H. lia.
Qed.

Lemma infinity_large : 2 ^ 53 < infinity.
Proof. reflexivity. Qed.

Lemma round53_infinity : round53 infinity = infinity.
Proof. vm_compute. reflexivity. Qed.

Lemma number_safe (x : Z) : safe x -> number x = x.
Proof.
  intros H. unfold number. rewrite (round53_safe x H).
  pose proof infinity_large. unfold safe in H.
  destruct (Z.leb_spec infinity x); [lia | ].
  destruct (Z.leb_spec x (- infinity)); [lia | reflexivity].
Qed.

Lemma number_opp (x : Z) : number (- x) = - number x.
Proof.
  unfold number. rewrite round53_opp. pose proof infinity_large.
  destruct (Z.leb_spec infinity (- round53 x)),
    (Z.leb_spec (- round53 x) (- infinity)),
    (Z.leb_spec infinity (round53 x)),
    (Z.leb_spec (round53 x) (- infinity)); lia.
Qed.

Lemma number_mono (x y : Z) : x <= y -> number x <= number y.
Proof.
  intros H. apply round53_mono in H. unfold number. pose proof infinity_large.
  destruct (Z.leb_spec infinity (round53 x)),
    (Z.leb_spec (round53 x) (- infinity)),
    (Z.leb_spec infinity (round53 y)),
    (Z.leb_spec (round53 y) (- infinity)); lia.
Qed.

Lemma number_cases (x : Z) :
  number x = infinity \/ number x = - infinity \/
  (number x = round53 x /\ - infinity < round53 x < infinity).
Proof.
  unfold number. pose proof infinity_large.
  destruct (Z.leb_spec infinity (round53 x)); [left; reflexivity | ].
  destruct (Z.leb_spec (round53 x) (- infinity)); [right; left; reflexivity | ].
  right. right. lia.
Qed.

Lemma number_infinity : number infinity = infinity.
Proof. vm_compute. reflexivity. Qed.

Lemma number_idem (x : Z) : number (number x) = number x.
Proof.
  destruct (number_cases x) as [E | [E | [E Hb]]]; rewrite E.
  - exact number_infinity.
  - rewrite number_opp, number_infinity. reflexivity.
  - unfold number. rewrite round53_idem.
    destruct (Z.leb_spec infinity (round53 x)); [lia | ].
    destruct (Z.leb_spec (round53 x) (- infinity)); [lia | reflexivity].
Qed.

Lemma number_nonneg (x : Z) : 0 <= x -> 0 <= number x.
Proof.
  intros H. apply number_mono in H.
  rewrite (number_safe 0) in H by (unfold safe; lia). exact H.
Qed.



Lemma num_add_nonneg (a b : Z) : 0 <= a -> 0 <= b -> 0 <= num_add a b.
Proof.
  intros Ha Hb. unfold num_add.
  pose proof (number_nonneg a Ha). pose proof (number_nonneg b Hb).
  destruct (is_infinite (number a)); [assumption | ].
  apply number_nonneg. lia.
Qed.

Lemma num_sub_nonneg (a b : Z) : 0 <= a -> b <= a -> 0 <= num_sub a b.
Proof.
  intros Ha Hb. unfold num_sub.
  pose proof (number_nonneg a Ha). pose proof (number_mono b a Hb).
  destruct (is_infinite (number a)); [assumption | ].
  apply number_nonneg. lia.
Qed.

Lemma num_sub_fixed (a b : Z) : number (num_sub a b) = num_sub a b.
Proof.
  unfold num_sub. destruct (is_infinite (number a)); apply number_idem.
Qed.

(** Taking a price and giving it back never leaves less than nothing. *)
Lemma num_refund_nonneg (a b : Z) :
  0 <= a -> b <= a -> 0 <= num_add (num_sub a b) b.
Proof.
  intros Ha Hb.
  pose proof (num_sub_nonneg a b Ha Hb) as Hx.
  unfold num_add. rewrite num_sub_fixed.
  destruct (is_infinite (num_sub a b)) eqn:Hinf; [exact Hx | ].
  apply number_nonneg.
  destruct (Z_le_gt_dec 0 b) as [Hb0 | Hb0].
  - pose proof (number_nonneg b Hb0). lia.
  - unfold num_sub in *. pose proof (number_nonneg a Ha) as Hna.
    destruct (is_infinite (number a)) eqn:Hia.
    + rewrite Hia in Hinf. discriminate Hinf.
    + assert (Hm : number (- number b) <= number (number a - number b))
        by (apply number_mono; lia).
      rewrite number_opp, number_idem in Hm. lia.
Qed.

Local Open Scope string_scope.

(** Closes a goal saying that an amount is not negative. *)
Ltac amounts :=
  match goal with
  | |- 0 <= num_add (num_sub _ _) _ => apply num_refund_nonneg; lia
  | |- 0 <= num_sub _ _ => apply num_sub_nonneg; lia
  | |- 0 <= num_add _ _ => apply num_add_nonneg; lia
  | _ => lia
  end.

(** *** Lists and names *)

Lemma not_self_app {A} (l : list A) (x : A) : l <> (l ++ [x])%list.
Proof.
  intros H. apply (f_equal (@length A)) in H.
  rewrite length_app in H. cbn in H. lia.
Qed.



(** ** buy *)




(** ** craft *)

(** C4.  With at least one milk and one bread, [craft "milkbread"] takes one
    from each, adds one milkbread and changes neither the wallet, nor any
    other counter, nor the console; with no milk or no bread it returns the
    state it was given. *)
Theorem craft_milkbread (g : game) :
  (1 <= milk g -> 1 <= bread g ->
     milk (craft "milkbread" g) = milk g - 1 /\
     bread (craft "milkbread" g) = bread g - 1 /\
     milkbread (craft "milkbread" g) = milkbread g + 1 /\
     (forall r, r <> Milk -> r <> Bread -> r <> Milkbread ->
        counter r (craft "milkbread" g) = counter r g) /\
     money (craft "milkbread" g) = money g /\
     console (craft "milkbread" g) = console g) /\
  (milk g = 0 \/ bread g = 0 -> craft "milkbread" g = g).
Proof.
  unfold craft. cbn [String.eqb Ascii.eqb Bool.eqb]. split.
  - intros Hm Hb. split_tests; try lia. cbn.
    repeat split; try reflexivity.
    intros [] ? ? ?; cbn; congruence.
  - intros H. split_tests; try lia; reflexivity.
Qed.

Lemma craft_milkbread_witness :
  let g := buy 1 "bread" (buy 1 "milk" initial) in
  (milk (craft "milkbread" g) = 1 - 1 /\
   bread (craft "milkbread" g) = 1 - 1 /\
   milkbread (craft "milkbread" g) = 0 + 1) /\
  craft "milkbread" initial = initial.
Proof.
  intros g. split.
  - destruct (craft_milkbread g) as [H _].
    destruct H as (Hm & Hb & Hmb & _); [vm_compute; discriminate | vm_compute; discriminate | ].
    exact (conj Hm (conj Hb Hmb)).
  - apply (craft_milkbread initial). left. reflexivity.
Defined.

(** ** sell *)




(** C7.  For milkbread, milksandwich and milkmeal, selling from an empty
    counter returns the state it was given, whatever the price: wallet,
    counters, page and console are all as before. *)
Theorem sell_empty (price : Z) (r : resource) (g : game) :
  In r [Milkbread; Milksandwich; Milkmeal] ->
  counter r g = 0 ->
  sell price (name r) g = g.
Proof.
  intros Hr Hc.
  destruct Hr as [<- | [<- | [<- | []]]];
    unfold sell; cbn [name String.eqb Ascii.eqb Bool.eqb]; cbn [counter] in Hc;
    split_tests; try lia; reflexivity.
Qed.

Lemma sell_empty_witness : sell 4 "milksandwich" initial = initial.
Proof.
  apply (sell_empty 4 Milksandwich initial); [cbn; tauto | reflexivity].
Defined.

(** ** Unknown items *)

(** What [buy] does with a name it does not know, by the two outcomes of
    the wallet test of line 35: the price is taken and given back. *)
Lemma buy_paths_unknown (price : Z) (item : string) (g : game) :
  ~ In item primary_names ->
  buy price item g =
    if money g >=? price
    then set_innerHTML "display"
           (Shown " $" (num_add (num_sub (money g) price) price))
           (console_error "item not registered"
              (set_money (num_add (num_sub (money g) price) price) g))
    else set_innerHTML "display" (Shown " $" (money g)) g.
Proof.
  intros Hn. unfold buy.
  destruct (money g >=? price); [ | reflexivity].
  split_tests; try reflexivity; exfalso; apply Hn; cbn; tauto.
Qed.




(** C10.  When the price exceeds the wallet and the name is not milk, bread
    or plate, [buy] leaves the wallet, every counter and the console as they
    were, so no diagnostic is logged; and whenever [buy] does log the
    diagnostic, the wallet covered the price and the name was none of the
    three.  The one thing such a call does is rewrite the wallet text on
    the page (line 51). *)
Theorem unaffordable_unknown_buy (price : Z) (item : string) (g : game) :
  (money g < price ->
   ~ In item primary_names ->
     money (buy price item g) = money g /\
     same_counters g (buy price item g) /\
     console (buy price item g) = console g /\
     ~ signals_unknown_item g (buy price item g) /\
     rendered (buy price item g) =
       <["display" := Shown " $" (money g)]> (rendered g)) /\
  (signals_unknown_item g (buy price item g) ->
     price <= money g /\ ~ In item primary_names).
Proof.
  unfold signals_unknown_item. split.
  - intros Hw Hn. rewrite (buy_paths_unknown price item g Hn).
    split_tests; try lia.
    repeat split; try reflexivity; try (intros []; reflexivity).
    cbn. apply not_self_app.
  - unfold buy. split_tests; cbn; intros Hsig;
      try (exfalso; exact (not_self_app _ _ Hsig));
      split; try lia.
    cbn. intros [E | [E | [E | []]]]; congruence.
Qed.

Lemma unaffordable_unknown_buy_witness :
  money (buy 11 "gold" initial) = 10 /\
  same_counters initial (buy 11 "gold" initial) /\
  console (buy 11 "gold" initial) = [] /\
  ~ signals_unknown_item initial (buy 11 "gold" initial) /\
  rendered (buy 11 "gold" initial) =
    <["display" := Shown " $" 10]> (rendered initial).
Proof.
  apply (unaffordable_unknown_buy 11 "gold" initial).
  - cbn. lia.
  - cbn. intros [H | [H | [H | []]]]; discriminate H.
Defined.

(** ** Which operation changes what *)




(** ** The recipe chain *)

(** C9.  From the initial state: buying milk gives milk 1 and money 9;
    buying bread gives bread 1 and money 8; crafting a milkbread gives milk
    0, bread 0 and milkbread 1; crafting a milksandwich then changes
    nothing, one milkbread being too few; a second round of milk, bread and
    milkbread gives milkbread 2; and crafting a milksandwich now ends with
    milkbread 0 and milksandwich 1. *)
Theorem recipe_chain :
  let g1 := buy 1 "milk" initial in
  let g2 := buy 1 "bread" g1 in
  let g3 := craft "milkbread" g2 in
  let g4 := craft "milksandwich" g3 in
  let g5 := buy 1 "milk" g4 in
  let g6 := buy 1 "bread" g5 in
  let g7 := craft "milkbread" g6 in
  let g8 := craft "milksandwich" g7 in
  (money initial = 10 /\ forall r, counter r initial = 0) /\
  (milk g1 = 1 /\ money g1 = 9) /\
  (bread g2 = 1 /\ money g2 = 8) /\
  (milk g3 = 0 /\ bread g3 = 0 /\ milkbread g3 = 1) /\
  g4 = g3 /\
  milkbread g7 = 2 /\
  (milkbread g8 = 0 /\ milksandwich g8 = 1) /\
  g8 = run [Buy 1 "milk"; Buy 1 "bread"; Craft "milkbread";
            Craft "milksandwich"; Buy 1 "milk"; Buy 1 "bread";
            Craft "milkbread"; Craft "milksandwich"] initial.
Proof.
  cbv zeta.
  split; [split; [reflexivity | intros []; reflexivity] | ].
  split; [split; reflexivity | ].
  split; [split; reflexivity | ].
  split; [repeat split; reflexivity | ].
  split; [vm_compute; reflexivity | ].
  split; [reflexivity | ].
  split; [split; reflexivity | ].
  vm_compute. reflexivity.
Qed.

(** ** Non-negative counters *)

Lemma nonneg_initial : nonneg initial.
Proof. split; [cbn; lia | intros []; cbn; lia]. Qed.

Lemma nonneg_counters (g : game) :
  0 <= money g -> 0 <= milk g -> 0 <= bread g -> 0 <= plate g ->
  0 <= milkbread g -> 0 <= milksandwich g -> 0 <= milkmeal g ->
  0 <= cheesesandwich g -> 0 <= cheese g ->
  nonneg g.
Proof. intros. split; [assumption | intros []; assumption]. Qed.

Lemma nonneg_fields (g : game) :
  nonneg g ->
  0 <= money g /\ 0 <= milk g /\ 0 <= bread g /\ 0 <= plate g /\
  0 <= milkbread g /\ 0 <= milksandwich g /\ 0 <= milkmeal g /\
  0 <= cheesesandwich g /\ 0 <= cheese g.
Proof.
  intros [Hm Hc].
  pose proof (Hc Milk). pose proof (Hc Bread). pose proof (Hc Plate).
  pose proof (Hc Milkbread). pose proof (Hc Milksandwich).
  pose proof (Hc Milkmeal). pose proof (Hc Cheesesandwich).
  pose proof (Hc Cheese). cbn in *. repeat split; assumption.
Qed.

(** A guarded call keeps the wallet and every counter non-negative. *)
Lemma nonneg_step (g : game) (o : op) :
  nonneg g -> guarded g o -> nonneg (step g o).
Proof.
  intros Hg Ho. apply nonneg_fields in Hg.
  destruct Hg as (? & ? & ? & ? & ? & ? & ? & ? & ?).
  destruct o as [price item | item | price item]; cbn [step guarded] in *.
  - unfold buy. split_tests; apply nonneg_counters; fields; amounts.
  - unfold craft. split_tests; cbn [andb]; apply nonneg_counters; fields; lia.
  - destruct Ho as [Hp Hcs]. unfold sell.
    split_tests; apply nonneg_counters; fields; try amounts.
    specialize (Hcs eq_refl). lia.
Qed.

(** So does a sequence of guarded calls, from any non-negative state. *)
Lemma nonneg_run (os : list op) (g : game) :
  nonneg g -> guarded_run os g -> nonneg (run os g).
Proof.
  revert g. induction os as [ | o os IH]; intros g Hg Hos.
  - exact Hg.
  - destruct Hos as [Ho Hos]. cbn [run fold_left].
    apply IH; [apply nonneg_step; assumption | exact Hos].
Qed.

Example nonneg_after_chain :
  nonneg (run [Buy 1 "milk"; Buy 1 "bread"; Craft "milkbread";
               Buy 1 "milk"; Buy 1 "bread"; Craft "milkbread";
               Craft "milksandwich"; Sell 5 "milksandwich"] initial).
Proof.
  apply nonneg_run; [exact nonneg_initial | ].
  cbn [guarded_run guarded].
  repeat split; try lia; intros E; discriminate E.
Qed.

(** Selling a cheesesandwich when none is held: the counter goes to -1 and
    the price is paid all the same, with nothing logged. *)
Lemma unguarded_cheesesandwich_sale (price : Z) (g : game) :
  cheesesandwich g = 0 ->
  cheesesandwich (sell price "cheesesandwich" g) = -1 /\
  money (sell price "cheesesandwich" g) = num_add (money g) price /\
  console (sell price "cheesesandwich" g) = console g.
Proof. intros H. cbn. rewrite H. repeat split. Qed.

(** C1.  The one-call sequence [sell 1 "cheesesandwich"] leads from the
    initial state, where the wallet and every counter are non-negative, to
    a state where the cheesesandwich counter is -1. *)
Theorem sell_breaks_nonneg :
  nonneg initial /\
  counter Cheesesandwich (run [Sell 1 "cheesesandwich"] initial) = -1 /\
  ~ nonneg (run [Sell 1 "cheesesandwich"] initial).
Proof.
  split; [exact nonneg_initial | split; [reflexivity | ]].
  intros [_ H]. specialize (H Cheesesandwich). vm_compute in H. apply H. reflexivity.
Qed.

(** C2.  From the initial state, where no cheesesandwich is held,
    [sell 5 "cheesesandwich"] is carried out like a sale: the counter
    becomes -1, the wallet grows from 10 to 15 and nothing is logged. *)
Theorem sell_cheesesandwich_at_zero :
  cheesesandwich initial = 0 /\
  cheesesandwich (sell 5 "cheesesandwich" initial) = -1 /\
  money (sell 5 "cheesesandwich" initial) = 15 /\
  console (sell 5 "cheesesandwich" initial) = [] /\
  sell 5 "cheesesandwich" initial <> initial.
Proof.
  destruct (unguarded_cheesesandwich_sale 5 initial eq_refl) as (Hc & Hm & Hl).
  repeat split; try assumption.
  intros E. rewrite E in Hc. discriminate Hc.
Qed.

(** ** The other recipes *)

(** X1.  With at least two milkbreads, [craft "milksandwich"] takes two of
    them and adds one milksandwich, changing neither the wallet, nor any
    other counter, nor the console; with fewer than two it returns the state
    it was given. *)
Theorem craft_milksandwich (g : game) :
  (2 <= milkbread g ->
     milkbread (craft "milksandwich" g) = milkbread g - 2 /\
     milksandwich (craft "milksandwich" g) = milksandwich g + 1 /\
     (forall r, r <> Milkbread -> r <> Milksandwich ->
        counter r (craft "milksandwich" g) = counter r g) /\
     money (craft "milksandwich" g) = money g /\
     console (craft "milksandwich" g) = console g) /\
  (milkbread g < 2 -> craft "milksandwich" g = g).
Proof.
  unfold craft. cbn [String.eqb Ascii.eqb Bool.eqb]. split.
  - intros Hmb. split_tests; try lia. fields.
    repeat split. intros [] ? ?; fields; congruence.
  - intros Hmb. split_tests; try lia; reflexivity.
Qed.

Lemma craft_milksandwich_witness :
  let g := run [Buy 1 "milk"; Buy 1 "bread"; Craft "milkbread";
                Buy 1 "milk"; Buy 1 "bread"; Craft "milkbread"] initial in
  (milkbread (craft "milksandwich" g) = 2 - 2 /\
   milksandwich (craft "milksandwich" g) = 0 + 1) /\
  craft "milksandwich" initial = initial.
Proof.
  intros g. split.
  - destruct (craft_milksandwich g) as [H _].
    destruct H as (H1 & H2 & _); [vm_compute; discriminate | ].
    exact (conj H1 H2).
  - apply (craft_milksandwich initial). cbn. lia.
Defined.

(** X2.  With at least one milksandwich, one milk and one plate,
    [craft "milkmeal"] takes one of each and adds one milkmeal, changing
    neither the wallet, nor any other counter, nor the console; when one of
    the three is missing it returns the state it was given. *)
Theorem craft_milkmeal (g : game) :
  (1 <= milksandwich g -> 1 <= milk g -> 1 <= plate g ->
     milksandwich (craft "milkmeal" g) = milksandwich g - 1 /\
     milk (craft "milkmeal" g) = milk g - 1 /\
     plate (craft "milkmeal" g) = plate g - 1 /\
     milkmeal (craft "milkmeal" g) = milkmeal g + 1 /\
     (forall r, r <> Milksandwich -> r <> Milk -> r <> Plate ->
        r <> Milkmeal -> counter r (craft "milkmeal" g) = counter r g) /\
     money (craft "milkmeal" g) = money g /\
     console (craft "milkmeal" g) = console g) /\
  (milksandwich g <= 0 \/ milk g <= 0 \/ plate g <= 0 ->
     craft "milkmeal" g = g).
Proof.
  unfold craft. cbn [String.eqb Ascii.eqb Bool.eqb]. split.
  - intros Hs Hm Hp. split_tests; try lia. fields.
    repeat split. intros [] ? ? ? ?; fields; congruence.
  - intros H. split_tests; try lia; reflexivity.
Qed.

Lemma craft_milkmeal_witness :
  let g := run [Buy 1 "milk"; Buy 1 "bread"; Craft "milkbread";
                Buy 1 "milk"; Buy 1 "bread"; Craft "milkbread";
                Craft "milksandwich"; Buy 1 "milk"; Buy 1 "plate"] initial in
  (milksandwich (craft "milkmeal" g) = 1 - 1 /\
   milk (craft "milkmeal" g) = 1 - 1 /\
   plate (craft "milkmeal" g) = 1 - 1 /\
   milkmeal (craft "milkmeal" g) = 0 + 1) /\
  craft "milkmeal" initial = initial.
Proof.
  intros g. split.
  - destruct (craft_milkmeal g) as [H _].
    destruct H as (H1 & H2 & H3 & H4 & _);
      [vm_compute; discriminate | vm_compute; discriminate
      | vm_compute; discriminate | ].
    exact (conj H1 (conj H2 (conj H3 H4))).
  - apply (craft_milkmeal initial). left. cbn. lia.
Defined.

(** X3.  With at least one milk, [craft "cheese"] takes one milk and adds
    one cheese, changing neither the wallet, nor any other counter, nor the
    console; with no milk it returns the state it was given. *)
Theorem craft_cheese (g : game) :
  (1 <= milk g ->
     milk (craft "cheese" g) = milk g - 1 /\
     cheese (craft "cheese" g) = cheese g + 1 /\
     (forall r, r <> Milk -> r <> Cheese ->
        counter r (craft "cheese" g) = counter r g) /\
     money (craft "cheese" g) = money g /\
     console (craft "cheese" g) = console g) /\
  (milk g <= 0 -> craft "cheese" g = g).
Proof.
  unfold craft. cbn [String.eqb Ascii.eqb Bool.eqb]. split.
  - intros Hm. split_tests; try lia. fields.
    repeat split. intros [] ? ?; fields; congruence.
  - intros Hm. split_tests; try lia; reflexivity.
Qed.

Lemma craft_cheese_witness :
  (milk (craft "cheese" (buy 1 "milk" initial)) = 1 - 1 /\
   cheese (craft "cheese" (buy 1 "milk" initial)) = 0 + 1) /\
  craft "cheese" initial = initial.
Proof.
  split.
  - destruct (craft_cheese (buy 1 "milk" initial)) as [H _].
    destruct H as (H1 & H2 & _); [vm_compute; discriminate | ].
    exact (conj H1 H2).
  - apply (craft_cheese initial). cbn. lia.
Defined.

(** X4.  With at least one cheese and two breads, [craft "cheesesandwich"]
    takes one cheese and two breads and adds one cheesesandwich, changing
    neither the wallet, nor any other counter, nor the console; with no
    cheese or fewer than two breads it returns the state it was given. *)
Theorem craft_cheesesandwich (g : game) :
  (1 <= cheese g -> 2 <= bread g ->
     cheese (craft "cheesesandwich" g) = cheese g - 1 /\
     bread (craft "cheesesandwich" g) = bread g - 2 /\
     cheesesandwich (craft "cheesesandwich" g) = cheesesandwich g + 1 /\
     (forall r, r <> Cheese -> r <> Bread -> r <> Cheesesandwich ->
        counter r (craft "cheesesandwich" g) = counter r g) /\
     money (craft "cheesesandwich" g) = money g /\
     console (craft "cheesesandwich" g) = console g) /\
  (cheese g <= 0 \/ bread g < 2 -> craft "cheesesandwich" g = g).
Proof.
  unfold craft. cbn [String.eqb Ascii.eqb Bool.eqb]. split.
  - intros Hc Hb. split_tests; try lia. fields.
    repeat split. intros [] ? ? ?; fields; congruence.
  - intros H. split_tests; try lia; reflexivity.
Qed.

Lemma craft_cheesesandwich_witness :
  let g := run [Buy 1 "milk"; Craft "cheese";
                Buy 1 "bread"; Buy 1 "bread"] initial in
  (cheese (craft "cheesesandwich" g) = 1 - 1 /\
   bread (craft "cheesesandwich" g) = 2 - 2 /\
   cheesesandwich (craft "cheesesandwich" g) = 0 + 1) /\
  craft "cheesesandwich" (buy 1 "bread" initial) = buy 1 "bread" initial.
Proof.
  intros g. split.
  - destruct (craft_cheesesandwich g) as [H _].
    destruct H as (H1 & H2 & H3 & _);
      [vm_compute; discriminate | vm_compute; discriminate | ].
    exact (conj H1 (conj H2 H3)).
  - apply (craft_cheesesandwich (buy 1 "bread" initial)). left. cbn. lia.
Defined.

(** ** Names the functions do not know *)

(** X5.  For a name that is none of the five recipes, [craft] returns the
    state it was given: no counter moves, the page is not touched and, unlike
    in [buy], nothing is logged. *)
Theorem craft_unknown (item : string) (g : game) :
  ~ In item recipe_names -> craft item g = g.
Proof.
  intros Hn. unfold craft.
  split_tests; try reflexivity; exfalso; apply Hn; cbn; tauto.
Qed.

Lemma craft_unknown_witness :
  craft "gold" initial = initial /\ craft "milk" initial = initial.
Proof.
  split.
  - apply (craft_unknown "gold" initial).
    cbn. intros [H | [H | [H | [H | [H | []]]]]]; discriminate H.
  - apply (craft_unknown "milk" initial).
    cbn. intros [H | [H | [H | [H | [H | []]]]]]; discriminate H.
Defined.

(** X6.  For a name that is none of the four sellable resources, [sell]
    returns the state it was given, whatever the price and whatever is held:
    milk, bread, plate and cheese cannot be sold, and nothing is logged. *)
Theorem sell_unknown (price : Z) (item : string) (g : game) :
  ~ In item sellable_names -> sell price item g = g.
Proof.
  intros Hn. unfold sell.
  split_tests; try reflexivity; exfalso; apply Hn; cbn; tauto.
Qed.

Lemma sell_unknown_witness :
  let g := craft "cheese" (buy 1 "milk" initial) in
  cheese g = 1 /\ sell 5 "cheese" g = g.
Proof.
  intros g. split; [reflexivity | ].
  apply (sell_unknown 5 "cheese" g).
  cbn. intros [H | [H | [H | [H | []]]]]; discriminate H.
Defined.

(** ** Non-negative counters, all along *)

Lemma guarded_run_app (os1 os2 : list op) (g : game) :
  guarded_run (os1 ++ os2) g -> guarded_run os1 g.
Proof.
  revert g. induction os1 as [ | o os1 IH]; intros g H.
  - exact I.
  - destruct H as [Ho H]. split; [exact Ho | apply IH; exact H].
Qed.

(** X7.  From a state whose wallet and counters are non-negative, a sequence
    of calls with non-negative prices that never sells a cheesesandwich when
    none is held keeps the wallet and every counter non-negative after each
    of its calls: [craft] and the three guarded branches of [sell] test what
    they take, and [buy] tests the wallet. *)
Theorem nonneg_all_along (os1 os2 : list op) (g : game) :
  nonneg g ->
  guarded_run (os1 ++ os2) g ->
  nonneg (run os1 g).
Proof.
  intros Hg H. apply nonneg_run; [exact Hg | ].
  exact (guarded_run_app os1 os2 g H).
Qed.

Lemma nonneg_all_along_witness :
  nonneg (run [Buy 1 "milk"; Craft "cheese"; Buy 1 "bread"; Buy 1 "bread";
               Craft "cheesesandwich"; Sell 7 "cheesesandwich"] initial).
Proof.
  apply (nonneg_all_along
           [Buy 1 "milk"; Craft "cheese"; Buy 1 "bread"; Buy 1 "bread";
            Craft "cheesesandwich"; Sell 7 "cheesesandwich"]
           [Buy 20 "plate"; Sell 0 "milkmeal"] initial).
  - split; [cbn; lia | intros []; cbn; lia].
  - cbn [app guarded_run guarded].
    repeat split; try lia; try (intros E; discriminate E).
    intros _. vm_compute. discriminate.
Defined.

(** ** The page follows the state *)

Lemma page_current_initial : page_current initial.
Proof.
  split.
  - intros []; right; cbn [name initial rendered counter];
      (split; [rewrite lookup_singleton_ne by discriminate | ]); reflexivity.
  - left. reflexivity.
Qed.

(** One call keeps the page up to date, whatever its arguments. *)
Lemma page_current_step (g : game) (o : op) :
  page_current g -> page_current (step g o).
Proof.
  intros [Hc Hd].
  pose proof (Hc Milk) as Hmilk. pose proof (Hc Bread) as Hbread.
  pose proof (Hc Plate) as Hplate. pose proof (Hc Milkbread) as Hmilkbread.
  pose proof (Hc Milksandwich) as Hmilksandwich.
  pose proof (Hc Milkmeal) as Hmilkmeal.
  pose proof (Hc Cheesesandwich) as Hcheesesandwich.
  pose proof (Hc Cheese) as Hcheese. clear Hc. fields.
  destruct o as [price item | item | price item]; cbn [step].
  - unfold buy. split_tests; (split; [ | right; fields; lookups; reflexivity]);
      intros []; fields; lookups;
      first [ left; reflexivity | assumption ].
  - unfold craft. split_tests; fields;
      (split;
        [ intros []; fields; lookups;
          first [ left; reflexivity | assumption ]
        | fields; lookups; exact Hd ]).
  - unfold sell. split_tests; fields;
      (split;
        [ intros []; fields; lookups;
          first [ left; reflexivity | assumption ]
        | first [ left; fields; lookups; reflexivity | exact Hd ] ]).
Qed.

(** X8.  After any sequence of calls from the initial state, with any names
    and prices, the element of every counter shows the current value of the
    counter, or was never written while the counter still holds its initial
    zero, and the wallet element shows the current money after the dollar
    sign: each branch that changes a number also rewrites its element. *)
Theorem page_current_run (os : list op) : page_current (run os initial).
Proof.
  unfold run. generalize page_current_initial. generalize initial.
  induction os as [ | o os IH]; intros g Hg.
  - exact Hg.
  - cbn [fold_left]. apply IH. apply page_current_step. exact Hg.
Qed.

(** X9.  [buy] always rewrites the wallet element, also when it changes
    nothing else, and puts a space and a dollar sign before the money; a
    [sell] that changes the state puts the dollar sign alone before it. *)
Theorem wallet_text (price : Z) (item : string) (g : game) :
  rendered (buy price item g) !! "display"
    = Some (Shown " $" (money (buy price item g))) /\
  (sell price item g <> g ->
   rendered (sell price item g) !! "display"
     = Some (Shown "$" (money (sell price item g)))).
Proof.
  split.
  - unfold buy. split_tests; fields; lookups; reflexivity.
  - unfold sell. split_tests; fields; intros Hne;
      first [ lookups; reflexivity | contradiction ].
Qed.

Lemma wallet_text_witness :
  let g := run [Buy 1 "milk"; Buy 1 "bread"; Craft "milkbread"] initial in
  rendered (buy 20 "milk" g) !! "display" = Some (Shown " $" 8) /\
  rendered (sell 3 "milkbread" g) !! "display" = Some (Shown "$" 11).
Proof.
  intros g. split.
  - exact (proj1 (wallet_text 20 "milk" g)).
  - apply (proj2 (wallet_text 3 "milkbread" g)).
    intros E. apply (f_equal money) in E. vm_compute in E. discriminate E.
Defined.

(** ** The console *)

(** One call logs nothing or the one diagnostic of [buy]. *)
Lemma console_step (g : game) (o : op) :
  console (step g o) = console g \/
  (exists price item, o = Buy price item) /\
  console (step g o) = (console g ++ ["item not registered"])%list.
Proof.
  destruct o as [price item | item | price item]; cbn [step].
  - unfold buy. split_tests; fields; auto. right. eauto.
  - left. unfold craft. split_tests; fields; reflexivity.
  - left. unfold sell. split_tests; fields; reflexivity.
Qed.

(** X10.  Whatever is called, the console only grows, and only by the
    diagnostic of [buy]: after a sequence of calls it holds what it held
    before followed by some copies of "item not registered", at most one
    for each call of [buy] in the sequence.  [craft] and [sell] never log. *)
Theorem console_run (os : list op) (g : game) :
  exists n : nat,
    (n <= count_buys os)%nat /\
    console (run os g)
      = (console g ++ repeat "item not registered" n)%list.
Proof.
  revert g. induction os as [ | o os IH]; intros g.
  - exists 0%nat. split; [reflexivity | ]. cbn. rewrite app_nil_r. reflexivity.
  - cbn [run fold_left]. destruct (IH (step g o)) as (n & Hn & Hrun).
    fold (run os (step g o)).
    destruct (console_step g o) as [Hs | [(price & item & ->) Hs]].
    + exists n. split; [destruct o; cbn [count_buys]; lia | ].
      rewrite Hrun, Hs. reflexivity.
    + exists (S n). split; [cbn [count_buys]; lia | ]. rewrite Hrun, Hs.
      rewrite <- app_assoc. reflexivity.
Qed.

(** ** Raw material *)

Lemma craft_conserves_step (item : string) (g : game) :
  milk_held (craft item g) = milk_held g /\
  bread_held (craft item g) = bread_held g /\
  plate_held (craft item g) = plate_held g /\
  money (craft item g) = money g.
Proof.
  unfold craft, milk_held, bread_held, plate_held.
  split_tests; fields; repeat split; lia.
Qed.

(** X11.  Crafting neither makes nor loses raw material or money: over any
    sequence of [craft] calls, with any names and from any state, the milk,
    the bread and the plates held (loose or inside crafted goods) and the
    wallet stay what they were. *)
Theorem craft_conserves (items : list string) (g : game) :
  milk_held (run (map Craft items) g) = milk_held g /\
  bread_held (run (map Craft items) g) = bread_held g /\
  plate_held (run (map Craft items) g) = plate_held g /\
  money (run (map Craft items) g) = money g.
Proof.
  revert g. induction items as [ | item items IH]; intros g.
  - repeat split.
  - cbn [map run fold_left step]. fold (run (map Craft items) (craft item g)).
    destruct (IH (craft item g)) as (Hm & Hb & Hp & Hw).
    destruct (craft_conserves_step item g) as (Hm' & Hb' & Hp' & Hw').
    repeat split; congruence.
Qed.

(** X12.  Raw material only comes in through [buy] and only leaves through
    [sell]: a call of [buy] adds one unit of the primary resource named, or
    nothing; a call of [sell] never adds any. *)
Theorem material_flow (price : Z) (item : string) (g : game) :
  (milk_held g <= milk_held (buy price item g) <= milk_held g + 1 /\
   bread_held g <= bread_held (buy price item g) <= bread_held g + 1 /\
   plate_held g <= plate_held (buy price item g) <= plate_held g + 1) /\
  (milk_held (sell price item g) <= milk_held g /\
   bread_held (sell price item g) <= bread_held g /\
   plate_held (sell price item g) <= plate_held g).
Proof.
  unfold buy, sell, milk_held, bread_held, plate_held.
  split; split_tests; fields; repeat split; lia.
Qed.

(** ** Prices are not checked *)



(** X14.  [buy] never overdraws: whatever the price and the name, a wallet
    that is not negative before the call is not negative after it, since
    the price is only taken when the wallet covers it. *)
Theorem buy_never_overdraws (price : Z) (item : string) (g : game) :
  0 <= money g -> 0 <= money (buy price item g).
Proof.
  intros Hw. unfold buy. split_tests; fields; amounts.
Qed.

Lemma buy_never_overdraws_witness :
  0 <= money (buy 10 "plate" initial) /\ 0 <= money (buy 11 "plate" initial).
Proof.
  split.
  - apply (buy_never_overdraws 10 "plate" initial). cbn. lia.
  - apply (buy_never_overdraws 11 "plate" initial). cbn. lia.
Defined.
